(** * Tensor statistics of nncf and their tolerant equality

    A shallow embedding of [nncf/common/tensor_statistics/statistics.py]:
    the five statistic classes, their [__init__] and [__eq__] methods, and
    the abstract static method [tensor_eq] that every backend supplies.

    Python objects live in a heap and are passed by reference; a method is a
    computation in a small monad that threads the heap, records every call
    made to [tensor_eq] and may raise.  The part of the Python data model
    the methods rely on (insertion-ordered dictionaries,
    [collections.Counter], [isinstance], the [==] operator protocol) is
    modelled next to them. *)

From Stdlib Require Import QArith Qabs Qcanon Permutation String.
From stdpp Require Import base decidable option list gmap.

Close Scope Q_scope.

(** ** Values *)

(** Object identities. *)
Definition loc := positive.

(** The attributes the classes assign in [__init__]. *)
Inductive Attr :=
  | min_values | max_values
  | mean_values | shape
  | median_values | mad_values
  | percentile_vs_values_dict
  | values.

(** The concrete classes of the module. *)
Inductive Class :=
  | MinMaxTensorStatisticT
  | MeanTensorStatisticT
  | MedianMADTensorStatisticT
  | PercentileTensorStatisticT
  | RawTensorStatisticT.

#[global] Instance Class_eq_dec : EqDecision Class.
Proof. solve_decision. Defined.

(** What an attribute can hold, following the annotations of the
    constructors: a tensor ([TensorType]), a shape ([List[int]]) or a
    dictionary from percentile levels to tensors
    ([Dict[float, TensorType]]).  A dictionary keeps its items in insertion
    order; its keys are pairwise distinct. *)
Inductive Value (K T : Type) :=
  | VTensor (t : T)
  | VIntList (l : list Z)
  | VDict (d : list (K * T)).
Arguments VTensor {K T} t.
Arguments VIntList {K T} l.
Arguments VDict {K T} d.

(** An instance of one of the five classes, with its attributes. *)
Inductive Statistic (K T : Type) :=
  | MinMax (min_v max_v : T)
  | Mean (mean_v : T) (shape_v : list Z)
  | MedianMAD (median_v mad_v : T)
  | Percentile (dict_v : list (K * T))
  | Raw (values_v : T).
Arguments MinMax {K T} min_v max_v.
Arguments Mean {K T} mean_v shape_v.
Arguments MedianMAD {K T} median_v mad_v.
Arguments Percentile {K T} dict_v.
Arguments Raw {K T} values_v.

Definition class_of {K T} (s : Statistic K T) : Class :=
  match s with
  | MinMax _ _ => MinMaxTensorStatisticT
  | Mean _ _ => MeanTensorStatisticT
  | MedianMAD _ _ => MedianMADTensorStatisticT
  | Percentile _ => PercentileTensorStatisticT
  | Raw _ => RawTensorStatisticT
  end.

Definition attr_of {K T} (s : Statistic K T) (a : Attr) : option (Value K T) :=
  match s, a with
  | MinMax mn _, min_values => Some (VTensor mn)
  | MinMax _ mx, max_values => Some (VTensor mx)
  | Mean m _, mean_values => Some (VTensor m)
  | Mean _ sh, shape => Some (VIntList sh)
  | MedianMAD md _, median_values => Some (VTensor md)
  | MedianMAD _ ma, mad_values => Some (VTensor ma)
  | Percentile d, percentile_vs_values_dict => Some (VDict d)
  | Raw v, values => Some (VTensor v)
  | _, _ => None
  end.

(** The [other: object] argument of [__eq__]: a reference to a statistic,
    or a value of a builtin type. *)
Inductive PyObject :=
  | Ref (l : loc)
  | PyNone
  | PyInt (z : Z).

(** What [__eq__] returns. *)
Inductive PyResult :=
  | NotImplemented
  | PyBool (b : bool).

Inductive PyExc :=
  | AttributeError
  | KeyError
  | TypeError
  | SystemError.

(** ** The backend interface

    [TensorStatistic] is the abstract base class: a backend implements the
    static method [tensor_eq(tensor1, tensor2, rtol)].  Being static, it
    receives the two attribute values and the tolerance and nothing else. *)
Class TensorStatistic (K T : Type) := {
  (* percentile levels are compared the way dictionary lookup and
     [Counter] compare keys *)
  key_eq_dec :: EqDecision K;
  tensor_eq : Value K T -> Value K T -> Q -> bool
}.

(** [rtol: float = 1e-6] in the declaration of [tensor_eq]. *)
Definition tensor_eq_default_rtol : Q := (1 # 1000000)%Q.

(** [rtol: float = 1e-9] in the declaration of
    [PercentileTensorStatistic.__eq__]. *)
Definition percentile_eq_default_rtol : Q := (1 # 1000000000)%Q.

(** ** The monad of method bodies *)

(** One call of [tensor_eq] as written at the call site; [call_rtol] is
    [None] when the call leaves [rtol] out. *)
Record Call (K T : Type) := mkCall {
  call_tensor1 : Value K T;
  call_tensor2 : Value K T;
  call_rtol : option Q
}.
Arguments mkCall {K T}.
Arguments call_tensor1 {K T}.
Arguments call_tensor2 {K T}.
Arguments call_rtol {K T}.

(** The tolerance the callee sees. *)
Definition effective_rtol {K T} (c : Call K T) : Q :=
  default tensor_eq_default_rtol (call_rtol c).

Record World (K T : Type) := mkWorld {
  heap : gmap loc (Statistic K T);
  calls : list (Call K T)
}.
Arguments mkWorld {K T}.
Arguments heap {K T}.
Arguments calls {K T}.

Inductive Outcome (A : Type) :=
  | Return (a : A)
  | Raise (e : PyExc).
Arguments Return {A} a.
Arguments Raise {A} e.

Definition M (K T A : Type) : Type := World K T -> Outcome A * World K T.

Definition ret {K T A} (a : A) : M K T A := fun w => (Return a, w).

Definition raise {K T A} (e : PyExc) : M K T A := fun w => (Raise e, w).

Definition bind {K T A B} (m : M K T A) (k : A -> M K T B) : M K T B :=
  fun w =>
    match m w with
    | (Return a, w') => k a w'
    | (Raise e, w') => (Raise e, w')
    end.

Notation "'do' x <- m ; k" := (bind m (fun x => k))
  (at level 10, x name, m at level 100, k at level 200).

Definition outcome {K T A} (m : M K T A) (w : World K T) : Outcome A := fst (m w).

Definition final {K T A} (m : M K T A) (w : World K T) : World K T := snd (m w).

(** The calls of [tensor_eq] a computation adds to the log. *)
Definition new_calls {K T A} (m : M K T A) (w : World K T) : list (Call K T) :=
  drop (length (calls w)) (calls (final m w)).

Section Primitives.
Context {K T : Type} `{!TensorStatistic K T}.

Definition deref (l : loc) : M K T (Statistic K T) :=
  fun w =>
    match heap w !! l with
    | Some s => (Return s, w)
    | None => (Raise SystemError, w)
    end.

(** [o.a] *)
Definition getattr (o : PyObject) (a : Attr) : M K T (Value K T) :=
  match o with
  | Ref l =>
      do s <- deref l;
      match attr_of s a with
      | Some v => ret v
      | None => raise AttributeError
      end
  | _ => raise AttributeError
  end.

(** [self.a = v]; the instances are typed records, so the constructors
    below store all attributes of an instance at once. *)
Definition store (l : loc) (s : Statistic K T) : M K T unit :=
  fun w => (Return tt, mkWorld (<[l := s]> (heap w)) (calls w)).

(** [isinstance(o, c)] *)
Definition is_instance (h : gmap loc (Statistic K T)) (o : PyObject) (c : Class) : bool :=
  match o with
  | Ref l =>
      match h !! l with
      | Some s => bool_decide (class_of s = c)
      | None => false
      end
  | _ => false
  end.

Definition isinstance (o : PyObject) (c : Class) : M K T bool :=
  fun w => (Return (is_instance (heap w) o c), w).

(** [self.tensor_eq(t1, t2)] and [self.tensor_eq(t1, t2, rtol)]. *)
Definition call_tensor_eq (t1 t2 : Value K T) (rtol : option Q) : M K T bool :=
  fun w =>
    let c := mkCall t1 t2 rtol in
    (Return (tensor_eq t1 t2 (effective_rtol c)),
     mkWorld (heap w) (calls w ++ [c])).

(** *** Dictionaries *)

Definition dict_keys (d : list (K * T)) : list K := map fst d.

(** [d[k]] on the items of a dictionary. *)
Fixpoint dict_get (d : list (K * T)) (k : K) : option T :=
  match d with
  | [] => None
  | (k', v) :: d' => if decide (k' = k) then Some v else dict_get d' k
  end.

(** [v.keys()], and the keys a [for] loop over [v] visits. *)
Definition keys (v : Value K T) : M K T (list K) :=
  match v with
  | VDict d => ret (dict_keys d)
  | _ => raise AttributeError
  end.

(** [v[k]] *)
Definition getitem (v : Value K T) (k : K) : M K T (Value K T) :=
  match v with
  | VDict d =>
      match dict_get d k with
      | Some t => ret (VTensor t)
      | None => raise KeyError
      end
  | _ => raise TypeError
  end.

(** *** [collections.Counter] *)

(** [c[k] += 1], a new key going last. *)
Fixpoint Counter_incr (c : list (K * nat)) (k : K) : list (K * nat) :=
  match c with
  | [] => [(k, 1)]
  | (k', n) :: c' =>
      if decide (k' = k) then (k', S n) :: c' else (k', n) :: Counter_incr c' k
  end.

(** [Counter(iterable)] *)
Definition Counter (l : list K) : list (K * nat) :=
  fold_left Counter_incr l [].

(** [c[k]]: a missing key counts zero. *)
Fixpoint Counter_getitem (c : list (K * nat)) (k : K) : nat :=
  match c with
  | [] => 0
  | (k', n) :: c' => if decide (k' = k) then n else Counter_getitem c' k
  end.

(** [Counter.__eq__]:
    [all(self[e] == other[e] for c in (self, other) for e in c)]. *)
Definition Counter_eq (c1 c2 : list (K * nat)) : bool :=
  forallb (fun e => Nat.eqb (Counter_getitem c1 e) (Counter_getitem c2 e))
          (map fst c1 ++ map fst c2).

(** [c1 != c2] *)
Definition Counter_ne (c1 c2 : list (K * nat)) : bool :=
  negb (Counter_eq c1 c2).

End Primitives.

(** ** The classes *)

Module MinMaxTensorStatistic.
Section Methods.
Context {K T : Type} `{!TensorStatistic K T}.

Definition __init__ (self : loc) (min_v max_v : T) : M K T unit :=
  store self (MinMax min_v max_v).

Definition __eq__ (self : loc) (other : PyObject) : M K T PyResult :=
  do inst <- isinstance other MinMaxTensorStatisticT;
  if negb inst then ret NotImplemented
  else
    do a1 <- getattr (Ref self) min_values;
    do a2 <- getattr other min_values;
    do r1 <- call_tensor_eq a1 a2 None;
    if negb r1 then ret (PyBool r1)
    else
      do b1 <- getattr (Ref self) max_values;
      do b2 <- getattr other max_values;
      do r2 <- call_tensor_eq b1 b2 None;
      ret (PyBool r2).
End Methods.
End MinMaxTensorStatistic.

Module MeanTensorStatistic.
Section Methods.
Context {K T : Type} `{!TensorStatistic K T}.

Definition __init__ (self : loc) (mean_v : T) (shape_v : list Z) : M K T unit :=
  store self (Mean mean_v shape_v).

Definition __eq__ (self : loc) (other : PyObject) : M K T PyResult :=
  do inst <- isinstance other MeanTensorStatisticT;
  if negb inst then ret NotImplemented
  else
    do a1 <- getattr (Ref self) mean_values;
    do a2 <- getattr other mean_values;
    do r1 <- call_tensor_eq a1 a2 None;
    if negb r1 then ret (PyBool r1)
    else
      do b1 <- getattr (Ref self) shape;
      do b2 <- getattr other shape;
      do r2 <- call_tensor_eq b1 b2 None;
      ret (PyBool r2).
End Methods.
End MeanTensorStatistic.

Module MedianMADTensorStatistic.
Section Methods.
Context {K T : Type} `{!TensorStatistic K T}.

Definition __init__ (self : loc) (median_v mad_v : T) : M K T unit :=
  store self (MedianMAD median_v mad_v).

Definition __eq__ (self : loc) (other : PyObject) : M K T PyResult :=
  do inst <- isinstance other MedianMADTensorStatisticT;
  if negb inst then ret NotImplemented
  else
    do a1 <- getattr (Ref self) median_values;
    do a2 <- getattr other median_values;
    do r1 <- call_tensor_eq a1 a2 None;
    if negb r1 then ret (PyBool r1)
    else
      do b1 <- getattr (Ref self) mad_values;
      do b2 <- getattr other mad_values;
      do r2 <- call_tensor_eq b1 b2 None;
      ret (PyBool r2).
End Methods.
End MedianMADTensorStatistic.

Module PercentileTensorStatistic.
Section Methods.
Context {K T : Type} `{!TensorStatistic K T}.

Definition __init__ (self : loc) (dict_v : list (K * T)) : M K T unit :=
  store self (Percentile dict_v).

(** The body of [for pct in self.percentile_vs_values_dict], over the
    keys still to visit, and the [return True] after the loop. *)
Fixpoint for_pct (self : loc) (other : PyObject) (pcts : list K) : M K T PyResult :=
  match pcts with
  | [] => ret (PyBool true)
  | pct :: pcts' =>
      do d1 <- getattr (Ref self) percentile_vs_values_dict;
      do v1 <- getitem d1 pct;
      do d2 <- getattr other percentile_vs_values_dict;
      do v2 <- getitem d2 pct;
      do r <- call_tensor_eq v1 v2 None;
      if negb r then ret (PyBool false)
      else for_pct self other pcts'
  end.

(** [rtol] is [None] when the caller leaves it out. *)
Definition __eq__ (self : loc) (other : PyObject) (rtol : option Q) : M K T PyResult :=
  let rtol := default percentile_eq_default_rtol rtol in
  do inst <- isinstance other PercentileTensorStatisticT;
  if negb inst then ret NotImplemented
  else
    do d1 <- getattr (Ref self) percentile_vs_values_dict;
    do k1 <- keys d1;
    do d2 <- getattr other percentile_vs_values_dict;
    do k2 <- keys d2;
    if Counter_ne (Counter k1) (Counter k2) then ret (PyBool false)
    else
      do d <- getattr (Ref self) percentile_vs_values_dict;
      do pcts <- keys d;
      for_pct self other pcts.
End Methods.
End PercentileTensorStatistic.

Module RawTensorStatistic.
Section Methods.
Context {K T : Type} `{!TensorStatistic K T}.

Definition __init__ (self : loc) (values_v : T) : M K T unit :=
  store self (Raw values_v).

Definition __eq__ (self : loc) (other : PyObject) : M K T PyResult :=
  do inst <- isinstance other RawTensorStatisticT;
  if negb inst then ret NotImplemented
  else
    do a1 <- getattr (Ref self) values;
    do a2 <- getattr other values;
    do r <- call_tensor_eq a1 a2 None;
    ret (PyBool r).
End Methods.
End RawTensorStatistic.

(** ** Dispatch and the [==] operator *)

Section Dispatch.
Context {K T : Type} `{!TensorStatistic K T}.

(** [x.__eq__(other)]: the method of the class of [x].  [None] and the
    integers answer as the builtin types do. *)
Definition dunder_eq (x other : PyObject) : M K T PyResult :=
  match x with
  | Ref l =>
      do s <- deref l;
      match class_of s with
      | MinMaxTensorStatisticT => MinMaxTensorStatistic.__eq__ l other
      | MeanTensorStatisticT => MeanTensorStatistic.__eq__ l other
      | MedianMADTensorStatisticT => MedianMADTensorStatistic.__eq__ l other
      | PercentileTensorStatisticT => PercentileTensorStatistic.__eq__ l other None
      | RawTensorStatisticT => RawTensorStatistic.__eq__ l other
      end
  | PyNone =>
      ret match other with PyNone => PyBool true | _ => NotImplemented end
  | PyInt z =>
      ret match other with PyInt z' => PyBool (Z.eqb z z') | _ => NotImplemented end
  end.

(** [x is y] *)
Definition py_is (x y : PyObject) : bool :=
  match x, y with
  | Ref l, Ref l' => bool_decide (l = l')
  | PyNone, PyNone => true
  | PyInt z, PyInt z' => Z.eqb z z'
  | _, _ => false
  end.

(** [x == y]: ask [x], then [y] when [x] declines, then compare
    identities.  None of the classes here is a subclass of another, so
    the reflected method never goes first. *)
Definition equals (x y : PyObject) : M K T bool :=
  do r <- dunder_eq x y;
  match r with
  | PyBool b => ret b
  | NotImplemented =>
      do r' <- dunder_eq y x;
      match r' with
      | PyBool b => ret b
      | NotImplemented => ret (py_is x y)
      end
  end.

End Dispatch.

(** ** Reading the methods

    Auxiliary notions used to state what the methods compute. *)

Section Reading.
Context {K T : Type} `{!TensorStatistic K T}.

(** [tensor_eq] as a call that leaves [rtol] out sees it. *)
Definition teq (a b : Value K T) : bool := tensor_eq a b tensor_eq_default_rtol.

(** The world after some more calls of [tensor_eq]; the heap is the same. *)
Definition logged (w : World K T) (cs : list (Call K T)) : World K T :=
  mkWorld (heap w) (calls w ++ cs).

(** A computation that leaves the heap alone and only makes calls of
    [tensor_eq] that satisfy [P]. *)
Definition reads_only {A} (P : Call K T -> Prop) (m : M K T A) : Prop :=
  forall w, exists cs, final m w = logged w cs /\ Forall P cs.

(** A call that leaves [rtol] out. *)
Definition no_rtol (c : Call K T) : Prop := call_rtol c = None.

(** The values of two dictionaries agree at a key both have. *)
Definition agree_at (dx dy : list (K * T)) (k : K) : bool :=
  match dict_get dx k, dict_get dy k with
  | Some a, Some b => teq (VTensor a) (VTensor b)
  | _, _ => false
  end.

(** The numeric fields of the variants that hold no dictionary are
    pairwise equal for [tensor_eq]. *)
Definition fields_tensor_eq (sx sy : Statistic K T) : Prop :=
  match sx, sy with
  | MinMax mn mx, MinMax mn' mx' =>
      teq (VTensor mn) (VTensor mn') = true /\ teq (VTensor mx) (VTensor mx') = true
  | MedianMAD md ma, MedianMAD md' ma' =>
      teq (VTensor md) (VTensor md') = true /\ teq (VTensor ma) (VTensor ma') = true
  | Raw v, Raw v' => teq (VTensor v) (VTensor v') = true
  | _, _ => False
  end.

(** What comparing two instances of one class comes to: [tensor_eq] on
    each pair of fields and, for the percentiles, equal counters of keys
    and [tensor_eq] at every key. *)
Definition compare_fields (sx sy : Statistic K T) : bool :=
  match sx, sy with
  | MinMax mn mx, MinMax mn' mx' =>
      teq (VTensor mn) (VTensor mn') && teq (VTensor mx) (VTensor mx')
  | Mean m sh, Mean m' sh' =>
      teq (VTensor m) (VTensor m') && teq (VIntList sh) (VIntList sh')
  | MedianMAD md ma, MedianMAD md' ma' =>
      teq (VTensor md) (VTensor md') && teq (VTensor ma) (VTensor ma')
  | Percentile dx, Percentile dy =>
      negb (Counter_ne (Counter (dict_keys dx)) (Counter (dict_keys dy)))
      && forallb (agree_at dx dy) (dict_keys dx)
  | Raw v, Raw v' => teq (VTensor v) (VTensor v')
  | _, _ => false
  end.

(** Occurrences of a key in a list of keys. *)
Definition occurrences (l : list K) (k : K) : nat :=
  count_occ (fun x y => decide (x = y)) l k.

End Reading.

(** ** A backend to run the methods on

    The classes that implement [tensor_eq] are not part of this module.
    Tensors are one-dimensional here, with rational elements, and
    percentile levels are rationals in lowest terms. *)
Module Backend.

Definition elem_close (rtol a b : Q) : bool :=
  Qle_bool (Qabs (a - b)) (rtol * Qabs b) &&
  Qle_bool (Qabs (b - a)) (rtol * Qabs a).

Fixpoint all_close (rtol : Q) (l1 l2 : list Q) : bool :=
  match l1, l2 with
  | [], [] => true
  | a :: l1', b :: l2' => elem_close rtol a b && all_close rtol l1' l2'
  | _, _ => false
  end.

Definition as_array (v : Value Qc (list Q)) : option (list Q) :=
  match v with
  | VTensor t => Some t
  | VIntList l => Some (map inject_Z l)
  | VDict _ => None
  end.

(** Modelled from the spec: the [tensor_eq] of a backend, which the
    module only declares.  The spec asks that two tensors are equal when
    their shapes agree and every pair of elements is equal within the
    relative tolerance, and that a shape mismatch is an inequality and not
    an error.  Closeness is taken relative to the smaller of the two
    magnitudes, which makes it symmetric. *)
Definition allclose (v1 v2 : Value Qc (list Q)) (rtol : Q) : bool :=
  match as_array v1, as_array v2 with
  | Some a, Some b => all_close rtol a b
  | _, _ => false
  end.

#[global] Instance rational : TensorStatistic Qc (list Q) :=
  {| tensor_eq := allclose |}.

(** A backend for which no two values are equal. *)
Definition never : TensorStatistic Qc (list Q) :=
  {| tensor_eq := fun _ _ _ => false |}.

Definition pct (q : Q) : Qc := Q2Qc q.

Definition world (objs : list (loc * Statistic Qc (list Q))) : World Qc (list Q) :=
  mkWorld (list_to_map objs) [].

(** A heap of instances, among them the ones the testable properties of
    the spec name. *)
Definition sample : World Qc (list Q) :=
  world
    [ (1%positive, Percentile [(pct 0.5, [1%Q]); (pct 99, [9%Q])]);
      (2%positive, Percentile [(pct 99, [9%Q]); (pct 0.5, [1%Q])]);
      (3%positive, Percentile [(pct 0.5, [1%Q]); (pct 99.9, [9%Q])]);
      (4%positive, Percentile [(pct 0.5, [1.0000005%Q]); (pct 99, [9%Q])]);
      (5%positive, MinMax [1%Q; 2%Q] [3%Q; 4%Q]);
      (6%positive, Raw [1%Q; 2%Q]);
      (7%positive, Mean [0.1%Q; 0.2%Q] [2%Z]);
      (8%positive, Mean [0.1%Q; 0.2%Q] [3%Z]);
      (9%positive, MinMax [1%Q; 2%Q; 3%Q] [3%Q; 4%Q]);
      (10%positive, Percentile []);
      (11%positive, Percentile []);
      (12%positive, MedianMAD [5%Q] [0.25%Q]);
      (13%positive, Raw [1.0000005%Q; 2%Q]) ].

End Backend.

(** ** Creating instances and naming attributes *)

Section Construction.
Context {K T : Type} `{!TensorStatistic K T}.




(** The answer the backend gave to a recorded call. *)
Definition call_holds (c : Call K T) : bool :=
  tensor_eq (call_tensor1 c) (call_tensor2 c) (effective_rtol c).

(** The calls of the percentile loop over [pcts]: one for each key, the
    value of [dx] first, up to the first pair the backend rejects. *)
Fixpoint visited (dx dy : list (K * T)) (pcts : list K) : list (Call K T) :=
  match pcts with
  | [] => []
  | k :: pcts' =>
      match dict_get dx k, dict_get dy k with
      | Some a, Some b =>
          mkCall (VTensor a) (VTensor b) None ::
          (if teq (VTensor a) (VTensor b) then visited dx dy pcts' else [])
      | _, _ => []
      end
  end.

(** A log in which every call but the last was answered [True], and the
    last one as the comparison turned out: [b] is the result. *)
Definition stops_at_failure (b : bool) (cs : list (Call K T)) : Prop :=
  (forall cs1 c cs2, cs = cs1 ++ c :: cs2 -> cs2 <> [] -> call_holds c = true) /\
  (b = true -> Forall (fun c => call_holds c = true) cs) /\
  (b = false -> forall c, last cs = Some c -> call_holds c = false).

End Construction.

(** The identifier of an attribute, as [__init__] writes it. *)
Definition attr_name (a : Attr) : string :=
  match a with
  | min_values => "min_values"
  | max_values => "max_values"
  | mean_values => "mean_values"
  | shape => "shape"
  | median_values => "median_values"
  | mad_values => "mad_values"
  | percentile_vs_values_dict => "percentile_vs_values_dict"
  | values => "values"
  end%string.

Definition all_attrs : list Attr :=
  [min_values; max_values; mean_values; shape; median_values; mad_values;
   percentile_vs_values_dict; values].

(** [vars(obj).get(name)]: the attribute of that name, among those the
    instance itself carries. *)
Definition attr_named {K T} (s : Statistic K T) (name : string) : option (Value K T) :=
  match List.find (fun a => String.eqb (attr_name a) name) all_attrs with
  | Some a => attr_of s a
  | None => None
  end.

(** The string constants of the classes. *)
Definition TENSOR_STATISTIC_OUTPUT_KEY : string := "tensor_statistic_output".
Definition MIN_STAT : string := "min_values".
Definition MAX_STAT : string := "max_values".
Definition MEAN_STAT : string := "mean_values".
Definition SHAPE_STAT : string := "shape".
Definition MEDIAN_VALUES_STAT : string := "median_values".
Definition MAD_VALUES_STAT : string := "mad_values".
Definition PERCENTILE_VS_VALUE_DICT : string := "percentile_vs_values_dict".
Definition VALUES_STATS : string := "values".

(** The constants a class declares in its own body. *)
Definition class_constants (c : Class) : list string :=
  match c with
  | MinMaxTensorStatisticT => [MIN_STAT; MAX_STAT]
  | MeanTensorStatisticT => [MEAN_STAT; SHAPE_STAT]
  | MedianMADTensorStatisticT => [MEDIAN_VALUES_STAT; MAD_VALUES_STAT]
  | PercentileTensorStatisticT => [PERCENTILE_VS_VALUE_DICT]
  | RawTensorStatisticT => [VALUES_STATS]
  end.

(** * Properties *)

(** ** Running the primitives *)

Section Runs.
Context {K T : Type} `{!TensorStatistic K T}.

Lemma logged_nil (w : World K T) : logged w [] = w.
Proof. destruct w as [h cs]. unfold logged. simpl. by rewrite app_nil_r. Qed.

Lemma logged_logged (w : World K T) cs cs' :
  logged (logged w cs) cs' = logged w (cs ++ cs').
Proof. unfold logged. simpl. by rewrite app_assoc. Qed.

Lemma new_calls_logged {A} (m : M K T A) (w : World K T) cs :
  final m w = logged w cs -> new_calls m w = cs.
Proof.
  intros E. unfold new_calls. rewrite E. simpl. by rewrite drop_app_length.
Qed.

Lemma bind_Return {A B} (m : M K T A) (k : A -> M K T B) (w : World K T) a w' :
  m w = (Return a, w') -> bind m k w = k a w'.
Proof. unfold bind. by intros ->. Qed.

Lemma bind_Raise {A B} (m : M K T A) (k : A -> M K T B) (w : World K T) e w' :
  m w = (Raise e, w') -> bind m k w = (Raise e, w').
Proof. unfold bind. by intros ->. Qed.

Lemma deref_run (w : World K T) l s :
  heap w !! l = Some s -> deref l w = (Return s, w).
Proof. unfold deref. by intros ->. Qed.

Lemma getattr_run (w : World K T) l s a v :
  heap w !! l = Some s -> attr_of s a = Some v ->
  getattr (Ref l) a w = (Return v, w).
Proof.
  intros Hl Ha. unfold getattr.
  rewrite (bind_Return _ _ _ _ _ (deref_run _ _ _ Hl)). by rewrite Ha.
Qed.

Lemma is_instance_Ref (h : gmap loc (Statistic K T)) l s c :
  h !! l = Some s -> is_instance h (Ref l) c = bool_decide (class_of s = c).
Proof. unfold is_instance. by intros ->. Qed.

Lemma isinstance_run (w : World K T) o c :
  isinstance o c w = (Return (is_instance (heap w) o c), w).
Proof. reflexivity. Qed.

Lemma call_tensor_eq_run (w : World K T) a b :
  call_tensor_eq a b None w = (Return (teq a b), logged w [mkCall a b None]).
Proof. reflexivity. Qed.

Lemma keys_run (w : World K T) d :
  keys (VDict d) w = (Return (dict_keys d), w).
Proof. reflexivity. Qed.

Lemma getitem_run (w : World K T) d k t :
  dict_get d k = Some t -> getitem (VDict d) k w = (Return (VTensor t), w).
Proof. unfold getitem. by intros ->. Qed.

End Runs.

(** One step of a method body whose primitives all succeed. *)
Ltac run_prim :=
  first
    [ apply isinstance_run
    | eapply getattr_run; [eassumption | reflexivity]
    | apply call_tensor_eq_run
    | eapply deref_run; eassumption
    | apply keys_run
    | eapply getitem_run; eassumption ].

Ltac run := repeat (erewrite bind_Return by run_prim).

(** ** Methods that only read *)

Section ReadsOnly.
Context {K T : Type} `{!TensorStatistic K T}.
Variable P : Call K T -> Prop.

Lemma reads_only_ret {A} (a : A) : reads_only P (ret a).
Proof. intros w. exists []. by rewrite logged_nil. Qed.

Lemma reads_only_raise {A} e : reads_only P (@raise K T A e).
Proof. intros w. exists []. by rewrite logged_nil. Qed.

Lemma reads_only_bind {A B} (m : M K T A) (k : A -> M K T B) :
  reads_only P m -> (forall a, reads_only P (k a)) -> reads_only P (bind m k).
Proof.
  intros Hm Hk w. destruct (Hm w) as (cs & Em & Pcs).
  unfold final in Em. unfold final at 1. unfold bind.
  destruct (m w) as [[a|e] w']; simpl in Em; subst w'.
  - destruct (Hk a (logged w cs)) as (cs' & Ek & Pcs').
    exists (cs ++ cs'). unfold final in Ek. rewrite Ek, logged_logged.
    split; [done|]. by apply Forall_app.
  - by exists cs.
Qed.

Lemma reads_only_deref l : reads_only P (@deref K T l).
Proof.
  intros w. exists []. rewrite logged_nil. unfold final, deref.
  by destruct (heap w !! l).
Qed.

Lemma reads_only_getattr o a : reads_only P (@getattr K T o a).
Proof.
  destruct o; simpl; try apply reads_only_raise.
  apply reads_only_bind; [apply reads_only_deref|].
  intros s. destruct (attr_of s a); [apply reads_only_ret | apply reads_only_raise].
Qed.

Lemma reads_only_isinstance o c : reads_only P (@isinstance K T o c).
Proof. intros w. exists []. by rewrite logged_nil. Qed.

Lemma reads_only_keys v : reads_only P (@keys K T v).
Proof. destruct v; simpl; first [apply reads_only_ret | apply reads_only_raise]. Qed.

Lemma reads_only_getitem v k : reads_only P (getitem v k).
Proof.
  destruct v; simpl; try apply reads_only_raise.
  destruct (dict_get d k); [apply reads_only_ret | apply reads_only_raise].
Qed.

Lemma reads_only_call a b r :
  P (mkCall a b r) -> reads_only P (call_tensor_eq a b r).
Proof. intros Hc w. exists [mkCall a b r]. split; [done|]. by constructor. Qed.

Lemma reads_only_if {A} (b : bool) (m1 m2 : M K T A) :
  reads_only P m1 -> reads_only P m2 -> reads_only P (if b then m1 else m2).
Proof. by destruct b. Qed.

End ReadsOnly.

Create HintDb reads discriminated.

#[export] Hint Resolve reads_only_ret reads_only_raise reads_only_deref
  reads_only_getattr reads_only_isinstance reads_only_keys reads_only_getitem
  reads_only_if : reads.

(** Walks a method body, leaving the calls of [tensor_eq] to [tac]. *)
Ltac reads_only_with tac :=
  repeat first
    [ solve [auto with reads]
    | apply reads_only_call; tac
    | apply reads_only_if
    | apply reads_only_bind; [|intros ?] ].

Section MethodsRead.
Context {K T : Type} `{!TensorStatistic K T}.

Lemma MinMax_eq_reads self other :
  reads_only no_rtol (MinMaxTensorStatistic.__eq__ self other).
Proof. unfold MinMaxTensorStatistic.__eq__. reads_only_with ltac:(reflexivity). Qed.

Lemma Mean_eq_reads self other :
  reads_only no_rtol (MeanTensorStatistic.__eq__ self other).
Proof. unfold MeanTensorStatistic.__eq__. reads_only_with ltac:(reflexivity). Qed.

Lemma MedianMAD_eq_reads self other :
  reads_only no_rtol (MedianMADTensorStatistic.__eq__ self other).
Proof. unfold MedianMADTensorStatistic.__eq__. reads_only_with ltac:(reflexivity). Qed.

Lemma Raw_eq_reads self other :
  reads_only no_rtol (RawTensorStatistic.__eq__ self other).
Proof. unfold RawTensorStatistic.__eq__. reads_only_with ltac:(reflexivity). Qed.

Lemma for_pct_reads self other pcts :
  reads_only no_rtol (PercentileTensorStatistic.for_pct self other pcts).
Proof.
  induction pcts as [|pct pcts IH]; cbn [PercentileTensorStatistic.for_pct];
    [auto with reads|].
  reads_only_with ltac:(reflexivity).
Qed.

Lemma Percentile_eq_reads self other rtol :
  reads_only no_rtol (PercentileTensorStatistic.__eq__ self other rtol).
Proof.
  unfold PercentileTensorStatistic.__eq__. reads_only_with ltac:(reflexivity).
  apply for_pct_reads.
Qed.

Lemma dunder_eq_reads x other : reads_only no_rtol (dunder_eq x other).
Proof.
  destruct x as [l| |z]; simpl; [|auto with reads..].
  apply reads_only_bind; [auto with reads|]. intros s.
  destruct (class_of s);
    auto using MinMax_eq_reads, Mean_eq_reads, MedianMAD_eq_reads,
      Percentile_eq_reads, Raw_eq_reads.
Qed.

Lemma equals_reads x y : reads_only no_rtol (equals x y).
Proof.
  unfold equals. apply reads_only_bind; [apply dunder_eq_reads|].
  intros [|b]; [|auto with reads].
  apply reads_only_bind; [apply dunder_eq_reads|].
  intros [|b]; auto with reads.
Qed.

Lemma reads_only_heap {A} (P : Call K T -> Prop) (m : M K T A) w :
  reads_only P m -> heap (final m w) = heap w.
Proof. intros Hm. destruct (Hm w) as (cs & -> & _). reflexivity. Qed.

Lemma reads_only_new_calls {A} (P : Call K T -> Prop) (m : M K T A) w :
  reads_only P m -> Forall P (new_calls m w).
Proof.
  intros Hm. destruct (Hm w) as (cs & E & Pcs).
  by rewrite (new_calls_logged _ _ _ E).
Qed.

End MethodsRead.

(** ** What the methods compute *)

(** The body of a class with two attributes, both instances at hand. *)
Ltac run_two_fields Hy :=
  run; rewrite (is_instance_Ref _ _ _ _ Hy); cbn [class_of negb];
  rewrite bool_decide_eq_true_2 by reflexivity; cbn [negb];
  run;
  match goal with
  | |- context [negb (teq ?a ?b)] => destruct (teq a b)
  end; cbn [negb andb]; run; unfold ret; rewrite ?logged_logged; reflexivity.

Section MethodRuns.
Context {K T : Type} `{!TensorStatistic K T}.

Lemma MinMax_eq_run (w : World K T) x y mn mx mn' mx' :
  heap w !! x = Some (MinMax mn mx) ->
  heap w !! y = Some (MinMax mn' mx') ->
  MinMaxTensorStatistic.__eq__ x (Ref y) w =
    (Return (PyBool (teq (VTensor mn) (VTensor mn') && teq (VTensor mx) (VTensor mx'))),
     logged w (mkCall (VTensor mn) (VTensor mn') None ::
               if teq (VTensor mn) (VTensor mn')
               then [mkCall (VTensor mx) (VTensor mx') None] else [])).
Proof.
  intros Hx Hy. unfold MinMaxTensorStatistic.__eq__. run_two_fields Hy.
Qed.

Lemma Mean_eq_run (w : World K T) x y m sh m' sh' :
  heap w !! x = Some (Mean m sh) ->
  heap w !! y = Some (Mean m' sh') ->
  MeanTensorStatistic.__eq__ x (Ref y) w =
    (Return (PyBool (teq (VTensor m) (VTensor m') && teq (VIntList sh) (VIntList sh'))),
     logged w (mkCall (VTensor m) (VTensor m') None ::
               if teq (VTensor m) (VTensor m')
               then [mkCall (VIntList sh) (VIntList sh') None] else [])).
Proof.
  intros Hx Hy. unfold MeanTensorStatistic.__eq__. run_two_fields Hy.
Qed.

Lemma MedianMAD_eq_run (w : World K T) x y md ma md' ma' :
  heap w !! x = Some (MedianMAD md ma) ->
  heap w !! y = Some (MedianMAD md' ma') ->
  MedianMADTensorStatistic.__eq__ x (Ref y) w =
    (Return (PyBool (teq (VTensor md) (VTensor md') && teq (VTensor ma) (VTensor ma'))),
     logged w (mkCall (VTensor md) (VTensor md') None ::
               if teq (VTensor md) (VTensor md')
               then [mkCall (VTensor ma) (VTensor ma') None] else [])).
Proof.
  intros Hx Hy. unfold MedianMADTensorStatistic.__eq__. run_two_fields Hy.
Qed.

Lemma Raw_eq_run (w : World K T) x y v v' :
  heap w !! x = Some (Raw v) ->
  heap w !! y = Some (Raw v') ->
  RawTensorStatistic.__eq__ x (Ref y) w =
    (Return (PyBool (teq (VTensor v) (VTensor v'))),
     logged w [mkCall (VTensor v) (VTensor v') None]).
Proof.
  intros Hx Hy. unfold RawTensorStatistic.__eq__.
  run. rewrite (is_instance_Ref _ _ _ _ Hy). cbn [class_of].
  rewrite bool_decide_eq_true_2 by reflexivity. cbn [negb]. run. reflexivity.
Qed.

(** Every [__eq__] declines an argument that is not of its class. *)
Lemma dunder_eq_declines (w : World K T) x s other :
  heap w !! x = Some s ->
  is_instance (heap w) other (class_of s) = false ->
  dunder_eq (Ref x) other w = (Return NotImplemented, w).
Proof.
  intros Hx Hi. unfold dunder_eq. run.
  destruct s; cbn [class_of] in *;
    [ unfold MinMaxTensorStatistic.__eq__
    | unfold MeanTensorStatistic.__eq__
    | unfold MedianMADTensorStatistic.__eq__
    | unfold PercentileTensorStatistic.__eq__
    | unfold RawTensorStatistic.__eq__ ];
    run; rewrite Hi; reflexivity.
Qed.

Lemma Percentile_eq_declines (w : World K T) x other rtol :
  is_instance (heap w) other PercentileTensorStatisticT = false ->
  PercentileTensorStatistic.__eq__ x other rtol w = (Return NotImplemented, w).
Proof.
  intros Hi. unfold PercentileTensorStatistic.__eq__. run. by rewrite Hi.
Qed.

Lemma dunder_eq_run (w : World K T) x s other :
  heap w !! x = Some s ->
  dunder_eq (Ref x) other w =
    match s with
    | MinMax _ _ => MinMaxTensorStatistic.__eq__ x other w
    | Mean _ _ => MeanTensorStatistic.__eq__ x other w
    | MedianMAD _ _ => MedianMADTensorStatistic.__eq__ x other w
    | Percentile _ => PercentileTensorStatistic.__eq__ x other None w
    | Raw _ => RawTensorStatistic.__eq__ x other w
    end.
Proof. intros Hx. unfold dunder_eq. run. by destruct s. Qed.

End MethodRuns.

(** ** Counters and dictionaries *)

Section CounterFacts.
Context {K T : Type} `{!TensorStatistic K T}.

Lemma Counter_getitem_incr (c : list (K * nat)) k e :
  Counter_getitem (Counter_incr c k) e =
  Counter_getitem c e + (if decide (k = e) then 1 else 0).
Proof.
  induction c as [|[k' n] c IH]; simpl.
  - destruct (decide (k = e)); reflexivity.
  - destruct (decide (k' = k)) as [->|Hk]; simpl.
    + destruct (decide (k = e)); lia.
    + destruct (decide (k' = e)) as [->|He]; [|exact IH].
      rewrite decide_False by congruence. lia.
Qed.

Lemma Counter_getitem_fold (l : list K) c e :
  Counter_getitem (fold_left Counter_incr l c) e =
  Counter_getitem c e + occurrences l e.
Proof.
  revert c. induction l as [|k l IH]; intros c; simpl; [lia|].
  rewrite IH, Counter_getitem_incr. unfold occurrences. simpl.
  destruct (decide (k = e)); lia.
Qed.

(** A counter built from a list counts the occurrences in the list. *)
Lemma Counter_getitem_Counter (l : list K) e :
  Counter_getitem (Counter l) e = occurrences l e.
Proof. unfold Counter. by rewrite Counter_getitem_fold. Qed.

Lemma Counter_getitem_missing (c : list (K * nat)) e :
  ~ In e (map fst c) -> Counter_getitem c e = 0.
Proof.
  induction c as [|[k n] c IH]; simpl; [done|]. intros Hn.
  destruct (decide (k = e)); [tauto|]. apply IH. tauto.
Qed.

Lemma Counter_eq_true (c1 c2 : list (K * nat)) :
  Counter_eq c1 c2 = true <->
  forall e, Counter_getitem c1 e = Counter_getitem c2 e.
Proof.
  unfold Counter_eq. rewrite forallb_forall. split.
  - intros Hall e.
    destruct (in_dec (fun x y => decide (x = y)) e (map fst c1 ++ map fst c2))
      as [Hin|Hout].
    + by apply Nat.eqb_eq, Hall.
    + rewrite !Counter_getitem_missing; [done|..];
        intros Hin; apply Hout, in_or_app; tauto.
  - intros Hall e _. apply Nat.eqb_eq, Hall.
Qed.

(** Two counters built from lists are equal exactly when the lists hold
    the same elements the same number of times. *)
Lemma Counter_eq_Permutation (l1 l2 : list K) :
  Counter_eq (Counter l1) (Counter l2) = true <-> Permutation l1 l2.
Proof.
  rewrite Counter_eq_true, (Permutation_count_occ (fun x y => decide (x = y))).
  split; intros Hc e; specialize (Hc e);
    by rewrite ?Counter_getitem_Counter in *.
Qed.

Lemma Counter_ne_false (l1 l2 : list K) :
  Counter_ne (Counter l1) (Counter l2) = false <-> Permutation l1 l2.
Proof.
  unfold Counter_ne. rewrite negb_false_iff. apply Counter_eq_Permutation.
Qed.

Lemma Counter_ne_true (l1 l2 : list K) :
  Counter_ne (Counter l1) (Counter l2) = true <-> ~ Permutation l1 l2.
Proof.
  rewrite <- Counter_ne_false. destruct (Counter_ne _ _); split; congruence.
Qed.

Lemma Counter_ne_sym (l1 l2 : list K) :
  Counter_ne (Counter l1) (Counter l2) = Counter_ne (Counter l2) (Counter l1).
Proof.
  destruct (Counter_ne (Counter l2) (Counter l1)) eqn:E.
  - apply Counter_ne_true. apply Counter_ne_true in E.
    intros Hp. by apply E, Permutation_sym.
  - apply Counter_ne_false. apply Counter_ne_false in E.
    by apply Permutation_sym.
Qed.

Lemma dict_get_Some_In (d : list (K * T)) k v :
  dict_get d k = Some v -> In (k, v) d.
Proof.
  induction d as [|[k' v'] d IH]; simpl; [done|].
  destruct (decide (k' = k)) as [->|]; [|auto].
  intros [= ->]. by left.
Qed.

Lemma dict_get_None (d : list (K * T)) k :
  dict_get d k = None <-> ~ In k (dict_keys d).
Proof.
  induction d as [|[k' v'] d IH]; simpl; [tauto|].
  destruct (decide (k' = k)); [split; [done|tauto]|].
  rewrite IH. tauto.
Qed.

Lemma dict_get_is_Some (d : list (K * T)) k :
  In k (dict_keys d) -> is_Some (dict_get d k).
Proof.
  intros Hin. destruct (dict_get d k) eqn:E; [by eexists|].
  by apply dict_get_None in E.
Qed.

(** With distinct keys, every item is found under its key. *)
Lemma dict_get_In (d : list (K * T)) k v :
  NoDup (dict_keys d) -> In (k, v) d -> dict_get d k = Some v.
Proof.
  induction d as [|[k' v'] d IH]; simpl; [done|].
  rewrite NoDup_cons. intros [Hk Hd] [[= -> ->]|Hin].
  - by rewrite decide_True.
  - rewrite decide_False; [auto|]. intros ->.
    apply Hk, list_elem_of_In. unfold dict_keys.
    change k with (fst (k, v)). by apply in_map.
Qed.

(** Looking a key up does not depend on the order of insertion. *)
Lemma dict_get_Permutation (d d' : list (K * T)) k :
  NoDup (dict_keys d) -> Permutation d d' -> dict_get d k = dict_get d' k.
Proof.
  intros Hnd Hp.
  assert (Hnd' : NoDup (dict_keys d')).
  { unfold dict_keys in *. by rewrite <- Hp. }
  destruct (dict_get d k) as [v|] eqn:E.
  - symmetry. apply dict_get_In; [done|].
    eapply Permutation_in; [exact Hp|]. by apply dict_get_Some_In.
  - symmetry. apply dict_get_None. apply dict_get_None in E.
    intros Hin. apply E. unfold dict_keys in *.
    eapply Permutation_in; [|exact Hin].
    by apply Permutation_map, Permutation_sym.
Qed.

End CounterFacts.

Section PercentileRuns.
Context {K T : Type} `{!TensorStatistic K T}.

(** The loop over keys that both dictionaries have. *)
Lemma for_pct_run (w : World K T) x y dx dy pcts :
  heap w !! x = Some (Percentile dx) ->
  heap w !! y = Some (Percentile dy) ->
  (forall k, In k pcts -> is_Some (dict_get dx k) /\ is_Some (dict_get dy k)) ->
  exists cs,
    PercentileTensorStatistic.for_pct x (Ref y) pcts w =
      (Return (PyBool (forallb (agree_at dx dy) pcts)), logged w cs).
Proof.
  revert w. induction pcts as [|k pcts IH]; intros w Hx Hy Hk;
    cbn [PercentileTensorStatistic.for_pct forallb].
  - exists []. by rewrite logged_nil.
  - destruct (Hk k (or_introl eq_refl)) as [[vx Ex] [vy Ey]].
    run. unfold agree_at at 1. rewrite Ex, Ey.
    destruct (teq (VTensor vx) (VTensor vy)); cbn [negb andb].
    + destruct (IH (logged w [mkCall (VTensor vx) (VTensor vy) None]) Hx Hy)
        as [cs E]; [intros k' Hin; apply Hk; by right|].
      rewrite E, logged_logged. by eexists.
    + by eexists.
Qed.

Lemma Percentile_eq_run (w : World K T) x y dx dy rtol :
  heap w !! x = Some (Percentile dx) ->
  heap w !! y = Some (Percentile dy) ->
  exists cs,
    PercentileTensorStatistic.__eq__ x (Ref y) rtol w =
      (Return (PyBool (negb (Counter_ne (Counter (dict_keys dx)) (Counter (dict_keys dy)))
                       && forallb (agree_at dx dy) (dict_keys dx))),
       logged w cs) /\
    (Counter_ne (Counter (dict_keys dx)) (Counter (dict_keys dy)) = true -> cs = []).
Proof.
  intros Hx Hy. unfold PercentileTensorStatistic.__eq__. run.
  rewrite (is_instance_Ref _ _ _ _ Hy). cbn [class_of].
  rewrite bool_decide_eq_true_2 by reflexivity. cbn [negb]. run.
  destruct (Counter_ne _ _) eqn:E; cbn [negb andb].
  - exists []. by rewrite logged_nil.
  - run. apply Counter_ne_false in E.
    destruct (for_pct_run w x y dx dy (dict_keys dx) Hx Hy) as [cs Ecs].
    { intros k Hin. split; apply dict_get_is_Some; [done|].
      eapply Permutation_in; [exact E|done]. }
    exists cs. by rewrite Ecs.
Qed.

(** Comparing the values key by key does not depend on the order in
    which the keys are visited, nor on the order of the items. *)
Lemma forallb_Permutation {A} (f : A -> bool) (l l' : list A) :
  Permutation l l' -> forallb f l = forallb f l'.
Proof.
  induction 1 as [|a l l' _ IH|a b l|l l' l'' _ IH1 _ IH2]; simpl.
  - reflexivity.
  - by rewrite IH.
  - destruct (f a), (f b); reflexivity.
  - by rewrite IH1.
Qed.

Lemma forallb_pointwise {A} (f g : A -> bool) (l : list A) :
  (forall a, f a = g a) -> forallb f l = forallb g l.
Proof. intros Hfg. induction l as [|a l IH]; simpl; congruence. Qed.

Lemma agree_at_Permutation (dx dy dx' dy' : list (K * T)) k :
  NoDup (dict_keys dx) -> NoDup (dict_keys dy) ->
  Permutation dx dx' -> Permutation dy dy' ->
  agree_at dx dy k = agree_at dx' dy' k.
Proof.
  intros Hx Hy Px Py. unfold agree_at.
  by rewrite (dict_get_Permutation dx dx' k Hx Px),
             (dict_get_Permutation dy dy' k Hy Py).
Qed.

Lemma agree_at_sym (dx dy : list (K * T)) k :
  (forall a b : Value K T, teq a b = teq b a) ->
  agree_at dx dy k = agree_at dy dx k.
Proof.
  intros Hsym. unfold agree_at.
  destruct (dict_get dx k), (dict_get dy k); auto.
Qed.

Lemma compare_fields_sym (sx sy : Statistic K T) :
  (forall a b : Value K T,
     tensor_eq a b tensor_eq_default_rtol = tensor_eq b a tensor_eq_default_rtol) ->
  compare_fields sx sy = compare_fields sy sx.
Proof.
  intros Hsym. destruct sx, sy; cbn [compare_fields]; try reflexivity;
    try (unfold teq; first [apply Hsym | f_equal; apply Hsym]).
  rewrite Counter_ne_sym.
  destruct (Counter_ne (Counter (dict_keys dict_v0)) (Counter (dict_keys dict_v)))
    eqn:E; cbn [negb andb]; [reflexivity|].
  apply Counter_ne_false in E.
  rewrite (forallb_Permutation _ _ _ (Permutation_sym E)).
  apply forallb_pointwise. intros k. by apply agree_at_sym.
Qed.

(** [__eq__] between two instances of one class. *)
Lemma dunder_eq_same_class (w : World K T) x y sx sy :
  heap w !! x = Some sx ->
  heap w !! y = Some sy ->
  class_of sx = class_of sy ->
  exists cs,
    dunder_eq (Ref x) (Ref y) w =
      (Return (PyBool (compare_fields sx sy)), logged w cs).
Proof.
  intros Hx Hy Hc. rewrite (dunder_eq_run w x sx _ Hx).
  destruct sx, sy; try discriminate Hc; cbn [compare_fields].
  - rewrite (MinMax_eq_run w x y _ _ _ _ Hx Hy). by eexists.
  - rewrite (Mean_eq_run w x y _ _ _ _ Hx Hy). by eexists.
  - rewrite (MedianMAD_eq_run w x y _ _ _ _ Hx Hy). by eexists.
  - destruct (Percentile_eq_run w x y _ _ None Hx Hy) as (cs & E & _).
    rewrite E. by eexists.
  - rewrite (Raw_eq_run w x y _ _ Hx Hy). by eexists.
Qed.

End PercentileRuns.

(** ** The rational backend *)

Section BackendFacts.
Import Backend.

Lemma all_close_sym rtol (l1 l2 : list Q) :
  all_close rtol l1 l2 = all_close rtol l2 l1.
Proof.
  revert l2. induction l1 as [|a l1 IH]; intros [|b l2]; simpl; try reflexivity.
  rewrite IH. f_equal. unfold elem_close. apply andb_comm.
Qed.

Lemma allclose_sym (v1 v2 : Value Qc (list Q)) rtol :
  allclose v1 v2 rtol = allclose v2 v1 rtol.
Proof.
  unfold allclose. destruct (as_array v1), (as_array v2); try reflexivity.
  apply all_close_sym.
Qed.

End BackendFacts.

(** ** The equality contract *)

Section Claims.
Context {K T : Type} `{!TensorStatistic K T}.

(** C2. Whatever the class of [x], [x.__eq__(other)] returns
    [NotImplemented] and raises nothing when [other] is not an instance
    of that class, whichever [rtol] the percentile variant is given; the
    heap and the log of calls are as before.  When [other] is moreover a
    builtin value or a live object, [x == other] is [False]: this covers
    a [MinMaxTensorStatistic] compared with a [RawTensorStatistic]. *)
Theorem C2_eq_declines_foreign_operand (w : World K T) x s other rtol :
  heap w !! x = Some s ->
  is_instance (heap w) other (class_of s) = false ->
  dunder_eq (Ref x) other w = (Return NotImplemented, w) /\
  (class_of s = PercentileTensorStatisticT ->
   PercentileTensorStatistic.__eq__ x other rtol w = (Return NotImplemented, w)) /\
  ((forall y, other = Ref y -> is_Some (heap w !! y)) ->
   equals (Ref x) other w = (Return false, w)).
Proof.
  intros Hx Hi.
  pose proof (dunder_eq_declines w x s other Hx Hi) as Hd.
  split; [exact Hd|]. split.
  - intros Hc. apply Percentile_eq_declines. by rewrite <- Hc.
  - intros Hlive. unfold equals. rewrite (bind_Return _ _ _ _ _ Hd).
    destruct other as [y| |z]; [|reflexivity..].
    destruct (Hlive y eq_refl) as [sy Hy].
    rewrite (is_instance_Ref _ _ _ _ Hy) in Hi.
    apply bool_decide_eq_false in Hi.
    assert (Hi' : is_instance (heap w) (Ref x) (class_of sy) = false).
    { rewrite (is_instance_Ref _ _ _ _ Hx).
      apply bool_decide_eq_false_2. congruence. }
    rewrite (bind_Return _ _ _ _ _ (dunder_eq_declines w y sy (Ref x) Hy Hi')).
    unfold ret, py_is. rewrite bool_decide_eq_false_2; [done|].
    intros ->. rewrite Hx in Hy. by injection Hy as ->.
Qed.

(** C3. Two percentile statistics whose keys are not the same multiset
    compare unequal at once: [__eq__] returns [False] and makes no call
    of [tensor_eq]. *)
Theorem C3_key_mismatch_returns_false_without_calls
    (w : World K T) x y dx dy rtol :
  heap w !! x = Some (Percentile dx) ->
  heap w !! y = Some (Percentile dy) ->
  ~ Permutation (dict_keys dx) (dict_keys dy) ->
  PercentileTensorStatistic.__eq__ x (Ref y) rtol w = (Return (PyBool false), w) /\
  new_calls (PercentileTensorStatistic.__eq__ x (Ref y) rtol) w = [].
Proof.
  intros Hx Hy Hk. apply Counter_ne_true in Hk.
  destruct (Percentile_eq_run w x y dx dy rtol Hx Hy) as (cs & E & Hcs).
  rewrite (Hcs Hk), logged_nil in E. rewrite Hk in E. split; [exact E|].
  apply new_calls_logged. unfold final. by rewrite E, logged_nil.
Qed.

(** C4. The result of comparing two percentile statistics does not
    depend on the order in which either dictionary holds its items. *)
Theorem C4_percentile_eq_order_independent
    (w : World K T) x y x' y' dx dy dx' dy' rtol rtol' :
  heap w !! x = Some (Percentile dx) ->
  heap w !! y = Some (Percentile dy) ->
  heap w !! x' = Some (Percentile dx') ->
  heap w !! y' = Some (Percentile dy') ->
  NoDup (dict_keys dx) -> NoDup (dict_keys dy) ->
  Permutation dx dx' -> Permutation dy dy' ->
  outcome (PercentileTensorStatistic.__eq__ x (Ref y) rtol) w =
  outcome (PercentileTensorStatistic.__eq__ x' (Ref y') rtol') w.
Proof.
  intros Hx Hy Hx' Hy' Nx Ny Px Py.
  destruct (Percentile_eq_run w x y dx dy rtol Hx Hy) as (cs & E & _).
  destruct (Percentile_eq_run w x' y' dx' dy' rtol' Hx' Hy') as (cs' & E' & _).
  unfold outcome. rewrite E, E'. cbn [fst]. do 2 f_equal.
  assert (Kx : Permutation (dict_keys dx) (dict_keys dx'))
    by (by apply Permutation_map).
  assert (Ky : Permutation (dict_keys dy) (dict_keys dy'))
    by (by apply Permutation_map).
  f_equal.
  - f_equal.
    destruct (Counter_ne (Counter (dict_keys dx')) (Counter (dict_keys dy'))) eqn:C.
    + apply Counter_ne_true. apply Counter_ne_true in C. intros Hp. apply C.
      by rewrite <- Kx, <- Ky.
    + apply Counter_ne_false. apply Counter_ne_false in C.
      by rewrite Kx, Ky.
  - rewrite (forallb_Permutation _ _ _ Kx).
    apply forallb_pointwise. intros k. by apply agree_at_Permutation.
Qed.

(** C5. Two instances of [MinMaxTensorStatistic], of
    [MedianMADTensorStatistic] or of [RawTensorStatistic] compare equal
    exactly when [tensor_eq] holds of each pair of corresponding fields. *)
Theorem C5_eq_iff_fields_tensor_eq (w : World K T) x y sx sy :
  heap w !! x = Some sx ->
  heap w !! y = Some sy ->
  class_of sx = class_of sy ->
  class_of sx ∈ [MinMaxTensorStatisticT; MedianMADTensorStatisticT;
                 RawTensorStatisticT] ->
  exists b,
    outcome (dunder_eq (Ref x) (Ref y)) w = Return (PyBool b) /\
    (b = true <-> fields_tensor_eq sx sy).
Proof.
  intros Hx Hy Hc Hv. unfold outcome. rewrite (dunder_eq_run w x sx _ Hx).
  destruct sx, sy; try discriminate Hc; cbn [class_of] in Hv.
  - rewrite (MinMax_eq_run w x y _ _ _ _ Hx Hy). eexists. split; [done|].
    cbn [fields_tensor_eq]. apply andb_true_iff.
  - exfalso. rewrite !elem_of_cons, elem_of_nil in Hv. intuition discriminate.
  - rewrite (MedianMAD_eq_run w x y _ _ _ _ Hx Hy). eexists. split; [done|].
    cbn [fields_tensor_eq]. apply andb_true_iff.
  - exfalso. rewrite !elem_of_cons, elem_of_nil in Hv. intuition discriminate.
  - rewrite (Raw_eq_run w x y _ _ Hx Hy). eexists. split; [done|].
    cbn [fields_tensor_eq]. reflexivity.
Qed.

(** C6. Two instances of [MeanTensorStatistic] compare equal exactly when
    [tensor_eq] holds of the two [mean_values] and of the two [shape]s:
    the shapes are handed to [tensor_eq] as the means are, in a call that
    leaves [rtol] out, and nothing else looks at them. *)
Theorem C6_mean_eq_compares_shape_with_tensor_eq
    (w : World K T) x y m sh m' sh' :
  heap w !! x = Some (Mean m sh) ->
  heap w !! y = Some (Mean m' sh') ->
  exists b,
    outcome (MeanTensorStatistic.__eq__ x (Ref y)) w = Return (PyBool b) /\
    (b = true <->
     tensor_eq (VTensor m) (VTensor m') tensor_eq_default_rtol = true /\
     tensor_eq (VIntList sh) (VIntList sh') tensor_eq_default_rtol = true) /\
    new_calls (MeanTensorStatistic.__eq__ x (Ref y)) w =
      mkCall (VTensor m) (VTensor m') None ::
      (if tensor_eq (VTensor m) (VTensor m') tensor_eq_default_rtol
       then [mkCall (VIntList sh) (VIntList sh') None] else []).
Proof.
  intros Hx Hy. pose proof (Mean_eq_run w x y m sh m' sh' Hx Hy) as E.
  eexists. unfold outcome. rewrite E. split; [reflexivity|]. split.
  - apply andb_true_iff.
  - apply new_calls_logged. unfold final. by rewrite E.
Qed.

(** C7. With a backend whose [tensor_eq] is symmetric at the tolerance
    the methods use, comparing two instances of one class gives the same
    result in both directions, for [__eq__] and for [==]. *)
Theorem C7_eq_symmetric (w : World K T) x y sx sy :
  (forall a b : Value K T,
     tensor_eq a b tensor_eq_default_rtol = tensor_eq b a tensor_eq_default_rtol) ->
  heap w !! x = Some sx ->
  heap w !! y = Some sy ->
  class_of sx = class_of sy ->
  outcome (dunder_eq (Ref x) (Ref y)) w = outcome (dunder_eq (Ref y) (Ref x)) w /\
  outcome (equals (Ref x) (Ref y)) w = outcome (equals (Ref y) (Ref x)) w.
Proof.
  intros Hsym Hx Hy Hc.
  destruct (dunder_eq_same_class w x y sx sy Hx Hy Hc) as [cs E].
  destruct (dunder_eq_same_class w y x sy sx Hy Hx (eq_sym Hc)) as [cs' E'].
  unfold outcome, equals.
  rewrite (bind_Return _ _ _ _ _ E), (bind_Return _ _ _ _ _ E'), E, E'.
  cbn [fst ret]. by rewrite (compare_fields_sym sx sy Hsym).
Qed.

(** C8. No [__eq__] and no [==] changes an object: the heap after the
    comparison is the heap before it, whatever the operands are. *)
Theorem C8_eq_leaves_operands_unchanged (w : World K T) self x other rtol :
  heap (final (dunder_eq x other) w) = heap w /\
  heap (final (PercentileTensorStatistic.__eq__ self other rtol) w) = heap w /\
  heap (final (equals x other) w) = heap w.
Proof.
  split; [|split]; eapply reads_only_heap;
    [apply dunder_eq_reads | apply Percentile_eq_reads | apply equals_reads].
Qed.

(** C9. [PercentileTensorStatistic.__eq__] does the same whichever
    [rtol] it is given, or when it is given none. *)
Theorem C9_percentile_eq_independent_of_rtol
    (w : World K T) self other (r1 r2 : option Q) :
  PercentileTensorStatistic.__eq__ self other r1 w =
  PercentileTensorStatistic.__eq__ self other r2 w.
Proof. reflexivity. Qed.

(** C10. Two percentile statistics with empty dictionaries compare
    equal, for every backend, and no call of [tensor_eq] is made. *)
Theorem C10_empty_percentiles_equal (w : World K T) x y rtol :
  heap w !! x = Some (Percentile []) ->
  heap w !! y = Some (Percentile []) ->
  PercentileTensorStatistic.__eq__ x (Ref y) rtol w = (Return (PyBool true), w).
Proof.
  intros Hx Hy. unfold PercentileTensorStatistic.__eq__. run.
  rewrite (is_instance_Ref _ _ _ _ Hy). cbn [class_of].
  rewrite bool_decide_eq_true_2 by reflexivity. cbn [negb]. run.
  change (Counter_ne (Counter (dict_keys [])) (Counter (dict_keys [])))
    with false.
  cbv iota. run. reflexivity.
Qed.

End Claims.

(** ** The tolerance of the percentile comparison *)

Section Tolerance.
Context {K T : Type} `{!TensorStatistic K T}.

(** Every call of [tensor_eq] that [PercentileTensorStatistic.__eq__]
    makes leaves [rtol] out, so that the callee works with its own
    default, whatever [rtol] the method was given. *)
Lemma Percentile_eq_calls_use_default_rtol (w : World K T) self other rtol :
  Forall (fun c => call_rtol c = None /\
                   effective_rtol c = tensor_eq_default_rtol)
         (new_calls (PercentileTensorStatistic.__eq__ self other rtol) w).
Proof.
  eapply Forall_impl;
    [apply (reads_only_new_calls no_rtol), Percentile_eq_reads|].
  intros c Hc. split; [exact Hc|]. unfold effective_rtol. by rewrite Hc.
Qed.

End Tolerance.

(** ** The contract on the sample heap *)

Section Sample.
Import Backend.

(** C1. The percentile comparison is declared with [rtol = 1e-9] and
    does not hand it on.  On the sample heap, objects 1 and 4 differ at
    level 0.5 by the relative amount 5e-7: [tensor_eq] tells the two
    tensors apart at 1e-9, the method calls it without [rtol] on each
    pair, that is at 1e-6, and answers [True]. *)
Theorem C1_percentile_eq_compares_at_default_rtol :
  outcome (PercentileTensorStatistic.__eq__ 1%positive (Ref 4%positive) None) sample
    = Return (PyBool true) /\
  new_calls (PercentileTensorStatistic.__eq__ 1%positive (Ref 4%positive) None) sample
    = [ mkCall (VTensor [1%Q]) (VTensor [1.0000005%Q]) None;
        mkCall (VTensor [9%Q]) (VTensor [9%Q]) None ] /\
  Forall (fun c => effective_rtol c = tensor_eq_default_rtol)
    (new_calls (PercentileTensorStatistic.__eq__ 1%positive (Ref 4%positive) None)
               sample) /\
  tensor_eq (VTensor [1%Q]) (VTensor [1.0000005%Q]) tensor_eq_default_rtol = true /\
  tensor_eq (VTensor [1%Q]) (VTensor [1.0000005%Q]) percentile_eq_default_rtol = false.
Proof.
  split; [by vm_compute|]. split; [by vm_compute|]. split.
  - eapply Forall_impl; [apply Percentile_eq_calls_use_default_rtol|].
    by intros c [_ Hc].
  - split; by vm_compute.
Qed.

(** The mean statistics 7 and 8 have equal means and different shapes;
    the min-max statistics 5 and 9 have [min_values] of different lengths. *)
Example mean_shape_differs :
  outcome (equals (Ref 7%positive) (Ref 8%positive)) sample = Return false /\
  outcome (equals (Ref 7%positive) (Ref 7%positive)) sample = Return true.
Proof. split; by vm_compute. Qed.

Example minmax_length_mismatch :
  outcome (equals (Ref 5%positive) (Ref 9%positive)) sample = Return false.
Proof. by vm_compute. Qed.

Lemma C2_witness :
  heap sample !! 5%positive = Some (MinMax [1%Q; 2%Q] [3%Q; 4%Q]) /\
  is_instance (heap sample) (Ref 6%positive) MinMaxTensorStatisticT = false /\
  dunder_eq (Ref 5%positive) (Ref 6%positive) sample = (Return NotImplemented, sample) /\
  equals (Ref 5%positive) (Ref 6%positive) sample = (Return false, sample).
Proof.
  split; [reflexivity|]. split; [reflexivity|].
  destruct (C2_eq_declines_foreign_operand sample 5%positive
              (MinMax [1%Q; 2%Q] [3%Q; 4%Q]) (Ref 6%positive) None
              eq_refl eq_refl) as (Hd & _ & He).
  split; [exact Hd|]. apply He. intros y Hy. injection Hy as <-.
  eexists. reflexivity.
Defined.

Lemma C3_witness :
  ~ Permutation [pct 0.5; pct 99] [pct 0.5; pct 99.9] /\
  PercentileTensorStatistic.__eq__ 1%positive (Ref 3%positive) None sample
    = (Return (PyBool false), sample).
Proof.
  assert (Hk : ~ Permutation [pct 0.5; pct 99] [pct 0.5; pct 99.9]).
  { apply Counter_ne_true. by vm_compute. }
  split; [exact Hk|].
  apply (C3_key_mismatch_returns_false_without_calls sample 1%positive 3%positive
           [(pct 0.5, [1%Q]); (pct 99, [9%Q])]
           [(pct 0.5, [1%Q]); (pct 99.9, [9%Q])] None eq_refl eq_refl Hk).
Defined.

Lemma C4_witness :
  outcome (PercentileTensorStatistic.__eq__ 1%positive (Ref 1%positive) None) sample =
  outcome (PercentileTensorStatistic.__eq__ 1%positive (Ref 2%positive) None) sample /\
  outcome (PercentileTensorStatistic.__eq__ 1%positive (Ref 2%positive) None) sample =
  Return (PyBool true).
Proof.
  assert (Hn : NoDup (dict_keys [(pct 0.5, [1%Q]); (pct 99, [9%Q])])).
  { apply (bool_decide_unpack _). by vm_compute. }
  split; [|by vm_compute].
  apply (C4_percentile_eq_order_independent sample
           1%positive 1%positive 1%positive 2%positive
           [(pct 0.5, [1%Q]); (pct 99, [9%Q])]
           [(pct 0.5, [1%Q]); (pct 99, [9%Q])]
           [(pct 0.5, [1%Q]); (pct 99, [9%Q])]
           [(pct 99, [9%Q]); (pct 0.5, [1%Q])]
           None None eq_refl eq_refl eq_refl eq_refl Hn Hn
           (Permutation_refl _) (perm_swap _ _ _)).
Defined.

Lemma C5_witness :
  exists b,
    outcome (dunder_eq (Ref 6%positive) (Ref 13%positive)) sample
      = Return (PyBool b) /\
    (b = true <->
     fields_tensor_eq (Raw [1%Q; 2%Q]) (Raw [1.0000005%Q; 2%Q])).
Proof.
  apply (C5_eq_iff_fields_tensor_eq sample 6%positive 13%positive
           (Raw [1%Q; 2%Q]) (Raw [1.0000005%Q; 2%Q]) eq_refl eq_refl eq_refl).
  cbn [class_of]. do 2 apply list_elem_of_further. apply list_elem_of_here.
Defined.

Lemma C6_witness :
  exists b,
    outcome (MeanTensorStatistic.__eq__ 7%positive (Ref 8%positive)) sample
      = Return (PyBool b) /\
    (b = true <->
     tensor_eq (VTensor [0.1%Q; 0.2%Q]) (VTensor [0.1%Q; 0.2%Q])
               tensor_eq_default_rtol = true /\
     tensor_eq (VIntList [2%Z]) (VIntList [3%Z]) tensor_eq_default_rtol = true) /\
    new_calls (MeanTensorStatistic.__eq__ 7%positive (Ref 8%positive)) sample =
      mkCall (VTensor [0.1%Q; 0.2%Q]) (VTensor [0.1%Q; 0.2%Q]) None ::
      (if tensor_eq (VTensor [0.1%Q; 0.2%Q]) (VTensor [0.1%Q; 0.2%Q])
                    tensor_eq_default_rtol
       then [mkCall (VIntList [2%Z]) (VIntList [3%Z]) None] else []).
Proof.
  apply (C6_mean_eq_compares_shape_with_tensor_eq sample 7%positive 8%positive
           [0.1%Q; 0.2%Q] [2%Z] [0.1%Q; 0.2%Q] [3%Z] eq_refl eq_refl).
Defined.

Lemma C7_witness :
  outcome (equals (Ref 5%positive) (Ref 9%positive)) sample =
  outcome (equals (Ref 9%positive) (Ref 5%positive)) sample.
Proof.
  apply (@C7_eq_symmetric Qc (list Q) rational sample 5%positive 9%positive
           (MinMax [1%Q; 2%Q] [3%Q; 4%Q]) (MinMax [1%Q; 2%Q; 3%Q] [3%Q; 4%Q])
           (fun a b => allclose_sym a b tensor_eq_default_rtol)
           eq_refl eq_refl eq_refl).
Defined.

Lemma C10_witness :
  @PercentileTensorStatistic.__eq__ Qc (list Q) never
    10%positive (Ref 11%positive) None sample
    = (Return (PyBool true), sample).
Proof.
  apply (@C10_empty_percentiles_equal Qc (list Q) never sample
           10%positive 11%positive None eq_refl eq_refl).
Defined.

End Sample.


(** * Further properties of the methods *)

(** ** Every pair of live objects *)

Section LiveOperands.
Context {K T : Type} `{!TensorStatistic K T}.

Lemma compare_fields_other_class (sx sy : Statistic K T) :
  class_of sx <> class_of sy -> compare_fields sx sy = false.
Proof. destruct sx, sy; cbn [class_of compare_fields]; congruence. Qed.

(** [x == y] between two live objects, of one class or not. *)
Lemma equals_live (w : World K T) x y sx sy :
  heap w !! x = Some sx ->
  heap w !! y = Some sy ->
  exists cs,
    equals (Ref x) (Ref y) w = (Return (compare_fields sx sy), logged w cs) /\
    (class_of sx <> class_of sy -> cs = []).
Proof.
  intros Hx Hy. unfold equals.
  destruct (decide (class_of sx = class_of sy)) as [Hc|Hc].
  - destruct (dunder_eq_same_class w x y sx sy Hx Hy Hc) as [cs E].
    rewrite (bind_Return _ _ _ _ _ E). by exists cs.
  - assert (Hi : is_instance (heap w) (Ref y) (class_of sx) = false).
    { rewrite (is_instance_Ref _ _ _ _ Hy).
      apply bool_decide_eq_false_2. congruence. }
    assert (Hi' : is_instance (heap w) (Ref x) (class_of sy) = false).
    { rewrite (is_instance_Ref _ _ _ _ Hx). by apply bool_decide_eq_false_2. }
    rewrite (bind_Return _ _ _ _ _ (dunder_eq_declines w x sx (Ref y) Hx Hi)).
    rewrite (bind_Return _ _ _ _ _ (dunder_eq_declines w y sy (Ref x) Hy Hi')).
    exists []. rewrite logged_nil, compare_fields_other_class by done.
    split; [|done]. unfold ret, py_is. rewrite bool_decide_eq_false_2; [done|].
    intros ->. rewrite Hx in Hy. injection Hy as ->. by apply Hc.
Qed.

(** The loop, with the calls it makes. *)
Lemma for_pct_calls (w : World K T) x y dx dy pcts :
  heap w !! x = Some (Percentile dx) ->
  heap w !! y = Some (Percentile dy) ->
  (forall k, In k pcts -> is_Some (dict_get dx k) /\ is_Some (dict_get dy k)) ->
  PercentileTensorStatistic.for_pct x (Ref y) pcts w =
    (Return (PyBool (forallb (agree_at dx dy) pcts)),
     logged w (visited dx dy pcts)).
Proof.
  revert w. induction pcts as [|k pcts IH]; intros w Hx Hy Hk;
    cbn [PercentileTensorStatistic.for_pct forallb visited].
  - by rewrite logged_nil.
  - destruct (Hk k (or_introl eq_refl)) as [[vx Ex] [vy Ey]].
    run. unfold agree_at at 1. rewrite Ex, Ey.
    destruct (teq (VTensor vx) (VTensor vy)); cbn [negb andb]; [|done].
    rewrite (IH (logged w [mkCall (VTensor vx) (VTensor vy) None]) Hx Hy)
      by (intros k' Hin; apply Hk; by right).
    by rewrite logged_logged.
Qed.

Lemma Percentile_eq_calls (w : World K T) x y dx dy rtol :
  heap w !! x = Some (Percentile dx) ->
  heap w !! y = Some (Percentile dy) ->
  Permutation (dict_keys dx) (dict_keys dy) ->
  PercentileTensorStatistic.__eq__ x (Ref y) rtol w =
    (Return (PyBool (forallb (agree_at dx dy) (dict_keys dx))),
     logged w (visited dx dy (dict_keys dx))).
Proof.
  intros Hx Hy Hp. unfold PercentileTensorStatistic.__eq__. run.
  rewrite (is_instance_Ref _ _ _ _ Hy). cbn [class_of].
  rewrite bool_decide_eq_true_2 by reflexivity. cbn [negb]. run.
  rewrite (proj2 (Counter_ne_false _ _) Hp). run.
  apply for_pct_calls; [done..|].
  intros k Hin. split; apply dict_get_is_Some; [done|].
  eapply Permutation_in; [exact Hp|done].
Qed.

End LiveOperands.

Section LiveContract.
Context {K T : Type} `{!TensorStatistic K T}.

Lemma agree_at_self (d : list (K * T)) k :
  (forall t : T, tensor_eq (VTensor t) (VTensor t) tensor_eq_default_rtol = true) ->
  In k (dict_keys d) -> agree_at d d k = true.
Proof.
  intros Hrefl Hin. unfold agree_at.
  destruct (dict_get_is_Some d k Hin) as [a ->]. apply Hrefl.
Qed.

Lemma compare_fields_refl (s : Statistic K T) :
  (forall t : T, tensor_eq (VTensor t) (VTensor t) tensor_eq_default_rtol = true) ->
  (forall l : list Z,
     tensor_eq (VIntList l) (VIntList l) tensor_eq_default_rtol = true) ->
  compare_fields s s = true.
Proof.
  intros Hrefl Hrefl'. destruct s; cbn [compare_fields]; unfold teq;
    rewrite ?Hrefl, ?Hrefl'; try reflexivity.
  rewrite (proj2 (Counter_ne_false _ _) (Permutation_refl _)). cbn [negb andb].
  apply forallb_forall. intros k Hin. by apply agree_at_self.
Qed.

Lemma dunder_eq_live (w : World K T) x y sx sy :
  heap w !! x = Some sx ->
  heap w !! y = Some sy ->
  outcome (dunder_eq (Ref x) (Ref y)) w =
    Return (if decide (class_of sx = class_of sy)
            then PyBool (compare_fields sx sy) else NotImplemented).
Proof.
  intros Hx Hy. unfold outcome. destruct (decide _) as [Hc|Hc].
  - destruct (dunder_eq_same_class w x y sx sy Hx Hy Hc) as [cs ->]. done.
  - rewrite (dunder_eq_declines w x sx (Ref y) Hx); [done|].
    rewrite (is_instance_Ref _ _ _ _ Hy).
    apply bool_decide_eq_false_2. congruence.
Qed.

(** An operand that is not of the class of [x], on either side of [==]. *)
Lemma equals_foreign (w : World K T) x s other :
  heap w !! x = Some s ->
  is_instance (heap w) other (class_of s) = false ->
  (forall y, other = Ref y -> is_Some (heap w !! y)) ->
  equals (Ref x) other w = (Return false, w) /\
  equals other (Ref x) w = (Return false, w).
Proof.
  intros Hx Hi Hlive.
  pose proof (dunder_eq_declines w x s other Hx Hi) as Hd.
  destruct other as [y| |z].
  - destruct (Hlive y eq_refl) as [sy Hy].
    rewrite (is_instance_Ref _ _ _ _ Hy) in Hi.
    apply bool_decide_eq_false in Hi.
    destruct (equals_live w x y s sy Hx Hy) as (cs & E & Hcs).
    destruct (equals_live w y x sy s Hy Hx) as (cs' & E' & Hcs').
    rewrite E, E', Hcs, Hcs', !logged_nil by congruence.
    by rewrite !compare_fields_other_class by congruence.
  - unfold equals. rewrite (bind_Return _ _ _ _ _ Hd). split; [done|].
    unfold dunder_eq at 1. unfold bind at 1, ret at 1.
    by rewrite (bind_Return _ _ _ _ _ Hd).
  - unfold equals. rewrite (bind_Return _ _ _ _ _ Hd). split; [done|].
    unfold dunder_eq at 1. unfold bind at 1, ret at 1.
    by rewrite (bind_Return _ _ _ _ _ Hd).
Qed.

(** X1. Two percentile statistics compare equal exactly when their keys
    are the same multiset and [tensor_eq], at its default tolerance, holds
    of the two values at every key; the comparison always yields a
    boolean. *)
Theorem X1_percentile_eq_iff (w : World K T) x y dx dy rtol :
  heap w !! x = Some (Percentile dx) ->
  heap w !! y = Some (Percentile dy) ->
  exists b,
    outcome (PercentileTensorStatistic.__eq__ x (Ref y) rtol) w = Return (PyBool b) /\
    (b = true <->
     Permutation (dict_keys dx) (dict_keys dy) /\
     forall k a c, dict_get dx k = Some a -> dict_get dy k = Some c ->
       tensor_eq (VTensor a) (VTensor c) tensor_eq_default_rtol = true).
Proof.
  intros Hx Hy.
  destruct (Percentile_eq_run w x y dx dy rtol Hx Hy) as (cs & E & _).
  eexists. unfold outcome. rewrite E. split; [reflexivity|].
  rewrite andb_true_iff, negb_true_iff, Counter_ne_false, forallb_forall.
  split; intros [Hp Hall]; (split; [exact Hp|]).
  - intros k a c Ea Ec.
    assert (Hin : In k (dict_keys dx)).
    { destruct (in_dec (fun u v => decide (u = v)) k (dict_keys dx)) as [|Hn];
        [done|]. apply dict_get_None in Hn. congruence. }
    specialize (Hall k Hin). unfold agree_at in Hall. by rewrite Ea, Ec in Hall.
  - intros k Hin. unfold agree_at.
    destruct (dict_get_is_Some dx k Hin) as [a Ea].
    destruct (dict_get_is_Some dy k (Permutation_in _ Hp Hin)) as [c Ec].
    rewrite Ea, Ec. by apply (Hall k).
Qed.


(** X3. With a backend for which every tensor and every shape equals
    itself, a statistic equals itself, and equals any other object that
    holds the same attributes: [==] answers [True] and [__eq__] returns
    [True]. *)
Theorem X3_eq_reflexive (w : World K T) x y s :
  (forall t : T, tensor_eq (VTensor t) (VTensor t) tensor_eq_default_rtol = true) ->
  (forall l : list Z,
     tensor_eq (VIntList l) (VIntList l) tensor_eq_default_rtol = true) ->
  heap w !! x = Some s ->
  heap w !! y = Some s ->
  outcome (equals (Ref x) (Ref y)) w = Return true /\
  outcome (dunder_eq (Ref x) (Ref y)) w = Return (PyBool true).
Proof.
  intros Hrefl Hrefl' Hx Hy.
  destruct (equals_live w x y s s Hx Hy) as (cs & E & _).
  unfold outcome at 1. rewrite E, (dunder_eq_live w x y s s Hx Hy).
  rewrite decide_True by done. by rewrite compare_fields_refl.
Qed.

(** X4. An operand that is not of the class of [x] compares unequal when
    it stands on the left of [==] as well: [other == x] is [False], makes
    no call of [tensor_eq] and changes nothing. *)
Theorem X4_foreign_operand_on_the_left (w : World K T) x s other :
  heap w !! x = Some s ->
  is_instance (heap w) other (class_of s) = false ->
  (forall y, other = Ref y -> is_Some (heap w !! y)) ->
  equals other (Ref x) w = (Return false, w).
Proof. intros Hx Hi Hlive. by destruct (equals_foreign w x s other Hx Hi Hlive). Qed.

(** X5. The result of a comparison is a function of what the two
    operands hold: the identities of the objects, the other objects of
    the heap and the calls made before play no part. *)
Theorem X5_eq_depends_on_contents_only (w w' : World K T) x y x' y' sx sy :
  heap w !! x = Some sx ->
  heap w !! y = Some sy ->
  heap w' !! x' = Some sx ->
  heap w' !! y' = Some sy ->
  outcome (equals (Ref x) (Ref y)) w = outcome (equals (Ref x') (Ref y')) w' /\
  outcome (dunder_eq (Ref x) (Ref y)) w = outcome (dunder_eq (Ref x') (Ref y')) w'.
Proof.
  intros Hx Hy Hx' Hy'.
  destruct (equals_live w x y sx sy Hx Hy) as (cs & E & _).
  destruct (equals_live w' x' y' sx sy Hx' Hy') as (cs' & E' & _).
  unfold outcome at 1 2. rewrite E, E'. split; [done|].
  by rewrite (dunder_eq_live w x y sx sy Hx Hy),
             (dunder_eq_live w' x' y' sx sy Hx' Hy').
Qed.

(** X6. No comparison of any class chooses a tolerance: every call of
    [tensor_eq] made by [x.__eq__(other)] or by [x == other] leaves [rtol]
    out, so the backend always works at its default. *)
Theorem X6_every_call_at_default_rtol (w : World K T) x other :
  Forall (fun c => call_rtol c = None /\
                   effective_rtol c = tensor_eq_default_rtol)
         (new_calls (dunder_eq x other) w) /\
  Forall (fun c => call_rtol c = None /\
                   effective_rtol c = tensor_eq_default_rtol)
         (new_calls (equals x other) w).
Proof.
  assert (Hd : forall c : Call K T, no_rtol c ->
            call_rtol c = None /\ effective_rtol c = tensor_eq_default_rtol).
  { intros c Hc. split; [exact Hc|]. unfold effective_rtol. by rewrite Hc. }
  split; (eapply Forall_impl; [|exact Hd]); apply (reads_only_new_calls no_rtol);
    [apply dunder_eq_reads | apply equals_reads].
Qed.

End LiveContract.

(** ** The calls a comparison makes *)

Section CallLog.
Context {K T : Type} `{!TensorStatistic K T}.

Lemma call_holds_default (a b : Value K T) :
  call_holds (mkCall a b None) = teq a b.
Proof. reflexivity. Qed.

Lemma stops_at_failure_nil b : stops_at_failure b ([] : list (Call K T)).
Proof.
  split; [|split].
  - intros [|c1 cs1] c cs2 E; discriminate E.
  - intros _. constructor.
  - intros _ c E. discriminate E.
Qed.

Lemma stops_at_failure_fail (c : Call K T) :
  call_holds c = false -> stops_at_failure false [c].
Proof.
  intros Hc. split; [|split].
  - intros [|c1 [|c2 cs1]] c' cs2 E Hn; simpl in E; simplify_eq.
  - discriminate.
  - intros _ c' E. simpl in E. by simplify_eq.
Qed.

Lemma stops_at_failure_step (c : Call K T) b cs :
  call_holds c = true ->
  (b = false -> cs <> []) ->
  stops_at_failure b cs -> stops_at_failure b (c :: cs).
Proof.
  intros Hc Hne (Hmid & Hall & Hlast). split; [|split].
  - intros [|c1 cs1] c' cs2 E Hcs2; simpl in E; simplify_eq; [done|].
    by eapply Hmid.
  - intros Hb. constructor; auto.
  - intros Hb c' E. destruct cs as [|c2 cs]; [by destruct (Hne Hb)|].
    rewrite last_cons_cons in E. by apply Hlast.
Qed.

Lemma stops_at_failure_two (a1 a2 b1 b2 : Value K T) :
  stops_at_failure (teq a1 a2 && teq b1 b2)
    (mkCall a1 a2 None :: if teq a1 a2 then [mkCall b1 b2 None] else []).
Proof.
  destruct (teq a1 a2) eqn:E1; cbn [andb].
  - apply stops_at_failure_step; [done|done|].
    destruct (teq b1 b2) eqn:E2.
    + apply stops_at_failure_step; [done|done|apply stops_at_failure_nil].
    + by apply stops_at_failure_fail.
  - by apply stops_at_failure_fail.
Qed.

Lemma stops_at_failure_one (a b : Value K T) :
  stops_at_failure (teq a b) [mkCall a b None].
Proof.
  destruct (teq a b) eqn:E.
  - apply stops_at_failure_step; [done|done|apply stops_at_failure_nil].
  - by apply stops_at_failure_fail.
Qed.

Lemma stops_at_failure_visited (dx dy : list (K * T)) pcts :
  (forall k, In k pcts -> is_Some (dict_get dx k) /\ is_Some (dict_get dy k)) ->
  stops_at_failure (forallb (agree_at dx dy) pcts) (visited dx dy pcts).
Proof.
  induction pcts as [|k pcts IH]; intros Hk; cbn [forallb visited].
  - apply stops_at_failure_nil.
  - destruct (Hk k (or_introl eq_refl)) as [[a Ea] [b Eb]].
    unfold agree_at at 1. rewrite Ea, Eb.
    destruct (teq (VTensor a) (VTensor b)) eqn:E; cbn [andb].
    + apply stops_at_failure_step; [done| |apply IH; intros; apply Hk; by right].
      destruct pcts as [|k' pcts]; [discriminate|]. intros _. cbn [visited].
      destruct (Hk k' (or_intror (or_introl eq_refl))) as [[a' ->] [b' ->]].
      discriminate.
    + by apply stops_at_failure_fail.
Qed.

Lemma visited_success (dx dy : list (K * T)) (l : list (K * T)) :
  (forall k a, In (k, a) l -> dict_get dx k = Some a) ->
  forallb (agree_at dx dy) (dict_keys l) = true ->
  Forall2 (fun item c =>
             exists b, dict_get dy item.1 = Some b /\
                       c = mkCall (VTensor item.2) (VTensor b) None)
          l (visited dx dy (dict_keys l)).
Proof.
  induction l as [|[k a] l IH]; intros Hl Hall;
    cbn [dict_keys map forallb visited fst] in *.
  - constructor.
  - apply andb_true_iff in Hall as [Hk Hall]. unfold agree_at in Hk.
    rewrite (Hl k a (or_introl eq_refl)) in *.
    destruct (dict_get dy k) as [b|] eqn:Eb; [|discriminate]. rewrite Hk.
    constructor; [by exists b|]. apply IH; [|done].
    intros k' a' Hin. apply Hl. by right.
Qed.

(** X7. When two percentile statistics compare equal, [tensor_eq] was
    called once for every item of the first, in the order of its
    dictionary, on the value of the first and the value the second holds
    under the same key. *)
Theorem X7_percentile_equal_calls_once_per_item
    (w : World K T) x y dx dy rtol :
  heap w !! x = Some (Percentile dx) ->
  heap w !! y = Some (Percentile dy) ->
  NoDup (dict_keys dx) ->
  outcome (PercentileTensorStatistic.__eq__ x (Ref y) rtol) w = Return (PyBool true) ->
  Forall2 (fun item c =>
             exists b, dict_get dy item.1 = Some b /\
                       c = mkCall (VTensor item.2) (VTensor b) None)
          dx (new_calls (PercentileTensorStatistic.__eq__ x (Ref y) rtol) w).
Proof.
  intros Hx Hy Hnd Hr.
  destruct (Percentile_eq_run w x y dx dy rtol Hx Hy) as (cs & E & _).
  unfold outcome in Hr. rewrite E in Hr. cbn [fst] in Hr.
  injection Hr as Hr. apply andb_true_iff in Hr as [Hp Hall].
  apply negb_true_iff, Counter_ne_false in Hp.
  pose proof (Percentile_eq_calls w x y dx dy rtol Hx Hy Hp) as E'.
  rewrite (new_calls_logged _ w (visited dx dy (dict_keys dx)))
    by (unfold final; by rewrite E').
  apply visited_success; [|done]. intros k a. by apply dict_get_In.
Qed.

(** X8. A comparison of two instances of one class stops at the first
    pair of attributes that [tensor_eq] rejects: every call but the last
    was answered [True]; all were when the result is [True]; and when the
    result is [False] the last call made, if there is one, was answered
    [False]. *)
Theorem X8_comparison_stops_at_first_failure (w : World K T) x y sx sy :
  heap w !! x = Some sx ->
  heap w !! y = Some sy ->
  class_of sx = class_of sy ->
  exists b,
    outcome (dunder_eq (Ref x) (Ref y)) w = Return (PyBool b) /\
    stops_at_failure b (new_calls (dunder_eq (Ref x) (Ref y)) w).
Proof.
  intros Hx Hy Hc. unfold outcome, new_calls, final.
  rewrite (dunder_eq_run w x sx _ Hx).
  destruct sx, sy; try discriminate Hc.
  - rewrite (MinMax_eq_run w x y _ _ _ _ Hx Hy). eexists. split; [done|].
    cbn [snd logged calls]. rewrite drop_app_length. apply stops_at_failure_two.
  - rewrite (Mean_eq_run w x y _ _ _ _ Hx Hy). eexists. split; [done|].
    cbn [snd logged calls]. rewrite drop_app_length. apply stops_at_failure_two.
  - rewrite (MedianMAD_eq_run w x y _ _ _ _ Hx Hy). eexists. split; [done|].
    cbn [snd logged calls]. rewrite drop_app_length. apply stops_at_failure_two.
  - destruct (Counter_ne (Counter (dict_keys dict_v)) (Counter (dict_keys dict_v0)))
      eqn:Ec.
    + destruct (Percentile_eq_run w x y _ _ None Hx Hy) as (cs & E & Hcs).
      rewrite E, (Hcs Ec), Ec. eexists. split; [done|].
      cbn [snd logged calls negb andb]. rewrite drop_app_length.
      apply stops_at_failure_nil.
    + apply Counter_ne_false in Ec.
      rewrite (Percentile_eq_calls w x y _ _ None Hx Hy Ec).
      eexists. split; [done|].
      cbn [snd logged calls]. rewrite drop_app_length.
      apply stops_at_failure_visited.
      intros k Hin. split; apply dict_get_is_Some; [done|].
      eapply Permutation_in; [exact Ec|done].
  - rewrite (Raw_eq_run w x y _ _ Hx Hy). eexists. split; [done|].
    cbn [snd logged calls]. rewrite drop_app_length. apply stops_at_failure_one.
Qed.

End CallLog.

(** ** Creating instances *)

Section Instances.
Context {K T : Type} `{!TensorStatistic K T}.






End Instances.

(** ** The constants of the classes *)

Lemma attr_named_Some {K T} (s : Statistic K T) name v :
  attr_named s name = Some v ->
  exists a, name = attr_name a /\ attr_of s a = Some v.
Proof.
  unfold attr_named.
  destruct (List.find _ all_attrs) as [a|] eqn:F; [|discriminate].
  apply List.find_some in F as [_ F]. apply String.eqb_eq in F. eauto.
Qed.

(** X11. The string constants a class declares are exactly the names of
    the attributes its instances carry; [TENSOR_STATISTIC_OUTPUT_KEY]
    names no attribute of any instance. *)
Theorem X11_class_constants_name_the_attributes {K T}
    (s : Statistic K T) (name : string) :
  (In name (class_constants (class_of s)) <-> is_Some (attr_named s name)) /\
  attr_named s TENSOR_STATISTIC_OUTPUT_KEY = None.
Proof.
  split; [|by destruct s]. split.
  - destruct s; cbn [class_of class_constants In];
      intros H; repeat (destruct H as [<-|H]; [by eexists|]); destruct H.
  - intros [v Hv]. apply attr_named_Some in Hv as (a & -> & Ha).
    destruct s, a; try discriminate Ha; cbn; auto.
Qed.

(** ** The further properties on the sample heap *)

Section MoreSample.
Import Backend.

Lemma elem_close_refl (a : Q) : elem_close tensor_eq_default_rtol a a = true.
Proof.
  assert (H : (Qabs (a - a) <= tensor_eq_default_rtol * Qabs a)%Q).
  { assert (E : (a - a == 0)%Q) by ring. rewrite E.
    apply Qmult_le_0_compat; [discriminate|apply Qabs_nonneg]. }
  unfold elem_close. apply Qle_bool_iff in H. by rewrite H.
Qed.

Lemma all_close_refl (l : list Q) : all_close tensor_eq_default_rtol l l = true.
Proof. induction l as [|a l IH]; simpl; [done|]. by rewrite elem_close_refl. Qed.

Lemma allclose_refl_tensor (t : list Q) :
  allclose (VTensor t) (VTensor t) tensor_eq_default_rtol = true.
Proof. apply all_close_refl. Qed.

Lemma allclose_refl_shape (l : list Z) :
  allclose (VIntList l) (VIntList l) tensor_eq_default_rtol = true.
Proof. apply all_close_refl. Qed.

Lemma X1_witness :
  exists b,
    outcome (PercentileTensorStatistic.__eq__ 1%positive (Ref 4%positive) None) sample
      = Return (PyBool b) /\
    (b = true <->
     Permutation [pct 0.5; pct 99] [pct 0.5; pct 99] /\
     forall k a c,
       dict_get [(pct 0.5, [1%Q]); (pct 99, [9%Q])] k = Some a ->
       dict_get [(pct 0.5, [1.0000005%Q]); (pct 99, [9%Q])] k = Some c ->
       tensor_eq (VTensor a) (VTensor c) tensor_eq_default_rtol = true).
Proof.
  apply (X1_percentile_eq_iff sample 1%positive 4%positive
           [(pct 0.5, [1%Q]); (pct 99, [9%Q])]
           [(pct 0.5, [1.0000005%Q]); (pct 99, [9%Q])] None eq_refl eq_refl).
Defined.


Lemma X3_witness :
  outcome (equals (Ref 7%positive) (Ref 7%positive)) sample = Return true /\
  outcome (dunder_eq (Ref 7%positive) (Ref 7%positive)) sample = Return (PyBool true).
Proof.
  apply (@X3_eq_reflexive Qc (list Q) rational sample 7%positive 7%positive
           (Mean [0.1%Q; 0.2%Q] [2%Z])
           allclose_refl_tensor allclose_refl_shape eq_refl eq_refl).
Defined.

Lemma X4_witness :
  equals PyNone (Ref 5%positive) sample = (Return false, sample).
Proof.
  apply (X4_foreign_operand_on_the_left sample 5%positive
           (MinMax [1%Q; 2%Q] [3%Q; 4%Q]) PyNone eq_refl eq_refl).
  intros y Hy. discriminate Hy.
Defined.

Lemma X5_witness :
  outcome (equals (Ref 5%positive) (Ref 9%positive)) sample =
  outcome (equals (Ref 2%positive) (Ref 1%positive))
    (logged (world [(1%positive, MinMax [1%Q; 2%Q; 3%Q] [3%Q; 4%Q]);
                    (2%positive, MinMax [1%Q; 2%Q] [3%Q; 4%Q])])
            [mkCall (VIntList [1%Z]) (VIntList [1%Z]) None]).
Proof.
  apply (@X5_eq_depends_on_contents_only Qc (list Q) rational sample
           (logged (world [(1%positive, MinMax [1%Q; 2%Q; 3%Q] [3%Q; 4%Q]);
                           (2%positive, MinMax [1%Q; 2%Q] [3%Q; 4%Q])])
                   [mkCall (VIntList [1%Z]) (VIntList [1%Z]) None])
           5%positive 9%positive
           2%positive 1%positive
           (MinMax [1%Q; 2%Q] [3%Q; 4%Q]) (MinMax [1%Q; 2%Q; 3%Q] [3%Q; 4%Q])
           eq_refl eq_refl eq_refl eq_refl).
Defined.

Lemma X7_witness :
  Forall2 (fun item c =>
             exists b, dict_get [(pct 99, [9%Q]); (pct 0.5, [1%Q])] item.1 = Some b /\
                       c = mkCall (VTensor item.2) (VTensor b) None)
          [(pct 0.5, [1%Q]); (pct 99, [9%Q])]
          (new_calls (PercentileTensorStatistic.__eq__ 1%positive (Ref 2%positive) None)
                     sample).
Proof.
  apply (X7_percentile_equal_calls_once_per_item sample 1%positive 2%positive
           [(pct 0.5, [1%Q]); (pct 99, [9%Q])]
           [(pct 99, [9%Q]); (pct 0.5, [1%Q])] None eq_refl eq_refl).
  - apply (bool_decide_unpack _). by vm_compute.
  - by vm_compute.
Defined.

Lemma X8_witness :
  exists b,
    outcome (dunder_eq (Ref 5%positive) (Ref 9%positive)) sample = Return (PyBool b) /\
    stops_at_failure b (new_calls (dunder_eq (Ref 5%positive) (Ref 9%positive)) sample).
Proof.
  apply (X8_comparison_stops_at_first_failure sample 5%positive 9%positive
           (MinMax [1%Q; 2%Q] [3%Q; 4%Q]) (MinMax [1%Q; 2%Q; 3%Q] [3%Q; 4%Q])
           eq_refl eq_refl eq_refl).
Defined.

End MoreSample.
